(** * AHU regression formulas ([ahu_model.py])

    The Python module consists of six closed-form formulas on floating-point
    scalars.  They are given in two readings.

    The first reads every Python [float] as a real number and every
    arithmetic operator as the exact operation on [R]: rounding of binary64
    values is not modelled, and decimal literals such as [0.0008] denote the
    rational they spell.  Operators that have no real result (a zero divisor,
    a negative base under a fractional exponent) yield [None].  Optional
    keyword arguments are [option R] parameters, [None] standing for an
    argument left out at the call.  Values, ranges and differences that leave
    room for rounding are stated in this reading.

    The second, [Binary64], keeps the floats and rounds at every operation.
    It is used where rounding decides: which branch a comparison takes, and
    the order of results at neighbouring inputs. *)

From Stdlib Require Import ZArith QArith Floats Reals Lra Lists.List.
Import ListNotations.

Set Warnings "-inexact-float".

Open Scope R_scope.

(** ** Python arithmetic on real-valued scalars *)

Module PyNum.

(** [x ** y] with a float exponent.  A positive base gives [exp (y * ln x)];
    a zero base gives [0] for a positive exponent, [1] for exponent zero and
    a [ZeroDivisionError] for a negative one.  A negative base is given no
    result: under the one exponent the module uses, [0.3412], Python yields
    a complex number (or [nan] on NumPy scalars), not a real. *)
Definition float_pow (x y : R) : option R :=
  if Rlt_dec 0 x then Some (Rpower x y)
  else if Req_dec_T x 0 then
         if Rlt_dec 0 y then Some 0
         else if Req_dec_T y 0 then Some 1 else None
       else None.

(** [x / y]: true division, undefined on a zero divisor. *)
Definition float_div (x y : R) : option R :=
  if Req_dec_T y 0 then None else Some (x / y).

(** Value of a keyword argument declared as [name=dflt]. *)
Definition kwarg (dflt : R) (given : option R) : R :=
  match given with
  | Some v => v
  | None => dflt
  end.

(** [coef[i]] on a one-dimensional array built by [np.array]; every index
    used by the module is a constant inside the array. *)
Definition item (arr : list R) (i : nat) : R := nth i arr 0.

End PyNum.

Import PyNum.

Notation "arr .[ i ]" := (item arr i) (at level 1, format "arr .[ i ]").

(** ** The six formulas *)

(** [damper_pos_from_static(static, load_adj=0)] *)
Definition damper_pos_from_static (static : R) (load_adj : option R) : R :=
  let load_adj := kwarg 0 load_adj in
  let coef := [-0.221; 1.1788; -2.1134; 1.6964] in
  let pos_damper :=
    coef.[0] * static ^ 3 + coef.[1] * static ^ 2 + coef.[2] * static + coef.[3] + load_adj in
  pos_damper.

(** [fan_speed_from_static(static, fan_adj=1)] *)
Definition fan_speed_from_static (static : R) (fan_adj : option R) : option R :=
  let fan_adj := kwarg 1 fan_adj in
  let coef := [28.345; 0.3412] in
  match float_pow static coef.[1] with
  | Some p =>
      let fan_speed := coef.[0] * p * fan_adj in
      Some (fan_speed / 60)
  | None => None
  end.

(** [fan_power_from_speed(freq, hp=15, eff=0.9)] *)
Definition fan_power_from_speed (freq : R) (hp eff : option R) : option R :=
  let hp := kwarg 15 hp in
  let eff := kwarg 0.9 eff in
  let a := 1.0608 in
  let b := -0.1222 in
  let c := 0.0684 in
  let d := 0.0022 in
  let Pratio := a * freq ^ 3 + b * freq ^ 2 + c * freq + d in
  let fan_power := float_div (Pratio * hp * 0.7457) eff in
  fan_power.

(** [valve_pos_from_Tsa_static(T_sa, static)] *)
Definition valve_pos_from_Tsa_static (T_sa static : R) : R :=
  let a := 0.0008 in
  let b := -0.1217 in
  let c := 4.8238 in
  let valve_adjust := - (static - 1.5) * 0.2 in
  let pos_valve := a * T_sa ^ 2 + b * T_sa + c + valve_adjust in
  if Rgt_dec pos_valve 1 then 1 else pos_valve.

(** [pump_speed_from_Tsa_static(T_sa, static)] *)
Definition pump_speed_from_Tsa_static (T_sa static : R) : R :=
  let base_speed := 0.6 in
  let base_threashold := 60 in
  let adj_threashold := base_threashold - (static - 1.5) * 10 in
  let T_sa_adjust := T_sa + (static - 1.5) * 10 in
  let a := 0.0015 in
  let b := -0.1845 in
  let c := 6.2675 in
  if Rge_dec T_sa adj_threashold then 0.6
  else a * T_sa_adjust ^ 2 + b * T_sa_adjust + c.

(** [pump_power_from_speed(freq, hp=25, eff=0.9)] *)
Definition pump_power_from_speed (freq : R) (hp eff : option R) : option R :=
  let hp := kwarg 25 hp in
  let eff := kwarg 0.9 eff in
  let a := 1.0608 in
  let b := -0.1222 in
  let c := 0.0684 in
  let d := 0.0022 in
  let Pratio := a * freq ^ 3 + b * freq ^ 2 + c * freq + d in
  let pump_power := float_div (Pratio * hp * 0.7457) eff in
  pump_power.

(** ** The shared helper the specification asks for

    Sections 4.6 and 9 of the specification describe one helper taking
    [(speed_ratio, rated_power, efficiency)]: the cubic part-load ratio with
    coefficients [1.0608, -0.1222, 0.0684, 0.0022], scaled by
    [rated_power * 0.7457 / efficiency].  It is written here from those
    words, to be compared with the two functions of the source. *)

Definition spec_part_load_ratio (speed_ratio : R) : R :=
  1.0608 * speed_ratio ^ 3 - 0.1222 * speed_ratio ^ 2 + 0.0684 * speed_ratio + 0.0022.

Definition spec_power_kw (speed_ratio rated_power efficiency : R) : R :=
  spec_part_load_ratio speed_ratio * (rated_power * 0.7457 / efficiency).

(** ** The formulas in binary64

    Where a property turns on the order of two results or on which branch is
    taken, rounding decides, and the real-valued reading above is not enough.
    The functions such properties need are given again on binary64 floats,
    every operator rounding as Python's does.  The one operator that is not
    arithmetic of the language itself is [**], which Python hands to the C
    library's [pow]; it is a parameter [libm_pow] of the formulas, and two
    stand-ins are provided for evaluation: powers by repeated multiplication
    and correctly rounded powers. *)

Module Binary64.

Section Formulas.

Local Open Scope float_scope.

Variable libm_pow : float -> float -> float.

(** Value of a keyword argument declared as [name=dflt]. *)
Definition kwarg (dflt : float) (given : option float) : float :=
  match given with
  | Some v => v
  | None => dflt
  end.

(** [adj_threashold] of [pump_speed_from_Tsa_static]. *)
Definition adj_threashold (static : float) : float :=
  let base_threashold := 60 in
  base_threashold - (static - 1.5) * 10.

(** [T_sa_adjust] of [pump_speed_from_Tsa_static]. *)
Definition T_sa_adjust (T_sa static : float) : float :=
  T_sa + (static - 1.5) * 10.

(** [pump_speed_from_Tsa_static(T_sa, static)]; a comparison with [nan] is
    false, as in Python, and takes the quadratic branch. *)
Definition pump_speed_from_Tsa_static (T_sa static : float) : float :=
  let base_speed := 0.6 in
  let a := 0.0015 in
  let b := -0.1845 in
  let c := 6.2675 in
  if adj_threashold static <=? T_sa then 0.6
  else a * libm_pow (T_sa_adjust T_sa static) 2 + b * T_sa_adjust T_sa static + c.

(** [fan_power_from_speed(freq, hp=15, eff=0.9)]; a zero divisor raises
    [ZeroDivisionError], which is [None]. *)
Definition fan_power_from_speed (freq : float) (hp eff : option float) : option float :=
  let hp := kwarg 15 hp in
  let eff := kwarg 0.9 eff in
  let a := 1.0608 in
  let b := -0.1222 in
  let c := 0.0684 in
  let d := 0.0022 in
  let Pratio := a * libm_pow freq 3 + b * libm_pow freq 2 + c * freq + d in
  if eff =? 0 then None else Some (Pratio * hp * 0.7457 / eff).

(** [pump_power_from_speed(freq, hp=25, eff=0.9)] *)
Definition pump_power_from_speed (freq : float) (hp eff : option float) : option float :=
  let hp := kwarg 25 hp in
  let eff := kwarg 0.9 eff in
  let a := 1.0608 in
  let b := -0.1222 in
  let c := 0.0684 in
  let d := 0.0022 in
  let Pratio := a * libm_pow freq 3 + b * libm_pow freq 2 + c * freq + d in
  if eff =? 0 then None else Some (Pratio * hp * 0.7457 / eff).

End Formulas.

(** First stand-in for [pow] at the exponents the module uses, 2 and 3:
    repeated binary64 multiplication. *)
Definition pow_by_products (x y : float) : float :=
  if (y =? 2)%float then (x * x)%float
  else if (y =? 3)%float then (x * x * x)%float
  else nan.

(** The exact power of a finite float, rounded once to nearest even. *)
Definition rounded_power (x : float) (n : positive) : float :=
  match Prim2SF x with
  | S754_finite s m e =>
      let z := Z.pow (if s then Z.neg m else Z.pos m) (Z.pos n) in
      SF2Prim (binary_normalize prec emax z (Z.pos n * e) false)
  | S754_zero s => if andb s (Z.odd (Z.pos n)) then (-0)%float else 0%float
  | S754_infinity s => if andb s (Z.odd (Z.pos n)) then neg_infinity else infinity
  | S754_nan => nan
  end.

(** Second stand-in for [pow] at the exponents 2 and 3: the correctly
    rounded power. *)
Definition pow_correctly_rounded (x y : float) : float :=
  if (y =? 2)%float then rounded_power x 2
  else if (y =? 3)%float then rounded_power x 3
  else nan.

(** The rational a finite float stands for (0 for infinities and [nan]). *)
Definition exact (x : float) : Q :=
  match Prim2SF x with
  | S754_finite s m e => inject_Z (if s then Z.neg m else Z.pos m) * Qpower 2 e
  | _ => 0
  end.

End Binary64.

(** ** Proof support *)

(** Unfolds one of the formulas down to arithmetic on [R]. *)
Ltac expose f := unfold f, kwarg, item; cbn [nth]; cbv zeta.

(** Settles a comparison of the source once its direction is known: the
    branch that contradicts the context is closed by linear arithmetic. *)
Ltac take_branch :=
  match goal with
  | |- context [Rgt_dec ?x ?y] => destruct (Rgt_dec x y); try (exfalso; lra)
  | |- context [Rge_dec ?x ?y] => destruct (Rge_dec x y); try (exfalso; lra)
  | |- context [Rlt_dec ?x ?y] => destruct (Rlt_dec x y); try (exfalso; lra)
  | |- context [Req_dec_T ?x ?y] => destruct (Req_dec_T x y); try (exfalso; lra)
  end.

Lemma float_div_nonzero (x y : R) : y <> 0 -> float_div x y = Some (x / y).
Proof. intros Hy. unfold float_div. take_branch. reflexivity. Qed.

Lemma float_div_zero (x : R) : float_div x 0 = None.
Proof. unfold float_div. take_branch. reflexivity. Qed.

Lemma float_pow_positive (x y : R) : 0 < x -> float_pow x y = Some (Rpower x y).
Proof. intros Hx. unfold float_pow. take_branch. reflexivity. Qed.

Lemma float_pow_negative (x y : R) : x < 0 -> float_pow x y = None.
Proof.
  intros Hx. unfold float_pow.
  destruct (Rlt_dec 0 x); [lra|].
  destruct (Req_dec_T x 0); [lra|reflexivity].
Qed.

Lemma Rpower_base_one (y : R) : Rpower 1 y = 1.
Proof. unfold Rpower. rewrite ln_1, Rmult_0_r. apply exp_0. Qed.

(** Both power functions are the helper of the specification whenever the
    efficiency is not zero, whatever the rated power. *)
Lemma fan_power_is_spec (freq hp eff : R) :
  eff <> 0 ->
  fan_power_from_speed freq (Some hp) (Some eff) = Some (spec_power_kw freq hp eff).
Proof.
  intros He. expose fan_power_from_speed.
  rewrite float_div_nonzero by assumption.
  f_equal. unfold spec_power_kw, spec_part_load_ratio, Rdiv. lra.
Qed.

Lemma pump_power_is_spec (freq hp eff : R) :
  eff <> 0 ->
  pump_power_from_speed freq (Some hp) (Some eff) = Some (spec_power_kw freq hp eff).
Proof.
  intros He. expose pump_power_from_speed.
  rewrite float_div_nonzero by assumption.
  f_equal. unfold spec_power_kw, spec_part_load_ratio, Rdiv. lra.
Qed.

(** The slope of every chord of the part-load cubic is non-negative: the
    quadratic form below has a negative discriminant. *)
Lemma part_load_chord_nonneg (r1 r2 : R) :
  0 <= 1.0608 * (r1 * r1 + r1 * r2 + r2 * r2) - 0.1222 * (r1 + r2) + 0.0684.
Proof.
  pose proof (pow2_ge_0 (r1 - r2)) as Hd.
  pose proof (pow2_ge_0 (r1 + r2 - 0.0768)) as Hs.
  nra.
Qed.

Lemma spec_part_load_ratio_monotone (r1 r2 : R) :
  r1 <= r2 -> spec_part_load_ratio r1 <= spec_part_load_ratio r2.
Proof.
  intros Hle. unfold spec_part_load_ratio.
  pose proof (part_load_chord_nonneg r1 r2) as Hc.
  assert (0 <= (r2 - r1) *
               (1.0608 * (r1 * r1 + r1 * r2 + r2 * r2) - 0.1222 * (r1 + r2) + 0.0684)) as Hp
    by (apply Rmult_le_pos; lra).
  lra.
Qed.

Lemma spec_power_kw_monotone (r1 r2 hp eff : R) :
  0 < hp -> 0 < eff -> r1 <= r2 -> spec_power_kw r1 hp eff <= spec_power_kw r2 hp eff.
Proof.
  intros Hhp Heff Hle. unfold spec_power_kw.
  apply Rmult_le_compat_r.
  - apply Rlt_le, Rdiv_lt_0_compat; lra.
  - apply spec_part_load_ratio_monotone, Hle.
Qed.



(** ** Valve position *)

(** C1: when [0.0008 * T_sa^2 - 0.1217 * T_sa + 4.8238 - (static - 1.5) * 0.2]
    exceeds 1 the valve position is exactly 1; when that value is at most 1,
    negative values included, it is returned unchanged: there is an upper
    clamp at 1 and no lower clamp. *)
Theorem valve_pos_upper_clamp_only (T_sa static : R) :
  let v := 0.0008 * T_sa ^ 2 - 0.1217 * T_sa + 4.8238 - (static - 1.5) * 0.2 in
  (v > 1 -> valve_pos_from_Tsa_static T_sa static = 1) /\
  (v <= 1 -> valve_pos_from_Tsa_static T_sa static = v).
Proof.
  intro v. subst v. expose valve_pos_from_Tsa_static.
  split; intros Hv; take_branch; lra.
Qed.

(** Supply air at 0 with static 1.5 saturates the valve; supply air at 100
    with static 10 gives the negative position [-1.0462], unclamped. *)
Lemma valve_pos_upper_clamp_only_witness :
  valve_pos_from_Tsa_static 0 1.5 = 1 /\
  valve_pos_from_Tsa_static 100 10 = -1.0462.
Proof.
  split.
  - apply (valve_pos_upper_clamp_only 0 1.5). lra.
  - destruct (valve_pos_upper_clamp_only 100 10) as [_ Hlow].
    rewrite Hlow; lra.
Defined.

(** C4 (as the specification words it, refuted): the unclamped value at
    [(60, 1.5)] is not [1.4018], and the valve position there is not 1. *)
Lemma valve_pos_60_not_saturated :
  0.0008 * 3600 - 0.1217 * 60 + 4.8238 <> 1.4018 /\
  valve_pos_from_Tsa_static 60 1.5 <> 1.
Proof.
  split; [lra|].
  expose valve_pos_from_Tsa_static. take_branch. lra.
Qed.

(** C4 (amended): [valve_position(60, 1.5)] computes the unclamped value
    [0.0008 * 3600 - 0.1217 * 60 + 4.8238] with a zero adjustment, which is
    [2.88 - 7.302 + 4.8238 = 0.4018]; this does not exceed 1, so [0.4018] is
    returned as it is. *)
Theorem valve_pos_60_value :
  0.0008 * 3600 - 0.1217 * 60 + 4.8238 = 0.4018 /\
  - (1.5 - 1.5) * 0.2 = 0 /\
  valve_pos_from_Tsa_static 60 1.5 = 0.4018.
Proof.
  repeat split; try lra.
  expose valve_pos_from_Tsa_static. take_branch. lra.
Qed.

(** ** Pump speed *)

(** C2 (as the claim words it, refuted): with the threshold read in exact
    arithmetic the branches are not the code's.  At supply air 68 and static
    0.7 (the double nearest to it) the supply air is strictly below
    [60 - (static - 1.5) * 10] and the quadratic there is under 0.598, yet
    the code returns 0.6, whatever [pow] does: its rounded threshold is 68. *)
Lemma pump_speed_exact_threshold_refuted :
  (Binary64.exact 68 < 60 - (Binary64.exact 0.7 - (3 # 2)) * 10)%Q /\
  (let t := (Binary64.exact 68 + (Binary64.exact 0.7 - (3 # 2)) * 10)%Q in
   (15 # 10000) * t * t - (1845 # 10000) * t + (62675 # 10000) < (598 # 1000))%Q /\
  Binary64.adj_threashold 0.7 = 68%float /\
  Binary64.pump_speed_from_Tsa_static Binary64.pow_by_products 68 0.7 = 0.6%float /\
  Binary64.pump_speed_from_Tsa_static Binary64.pow_correctly_rounded 68 0.7 = 0.6%float.
Proof. repeat split; vm_compute; reflexivity. Qed.

(** C2 (amended): for every pair of binary64 inputs and whatever [pow]
    returns, if the supply air is at least the threshold as the code computes
    it, [60 - (static - 1.5) * 10] rounded at each operation, the pump speed
    is exactly 0.6; otherwise, a [nan] comparison included, it is the
    quadratic [0.0015 * t ** 2 + -0.1845 * t + 6.2675] evaluated in binary64
    at [t = T_sa + (static - 1.5) * 10], unclamped. *)
Theorem pump_speed_two_branches_binary64
    (libm_pow : float -> float -> float) (T_sa static : float) :
  let t := (T_sa + (static - 1.5) * 10)%float in
  ((60 - (static - 1.5) * 10 <=? T_sa)%float = true ->
   Binary64.pump_speed_from_Tsa_static libm_pow T_sa static = 0.6%float) /\
  ((60 - (static - 1.5) * 10 <=? T_sa)%float = false ->
   Binary64.pump_speed_from_Tsa_static libm_pow T_sa static
   = (0.0015 * libm_pow t 2 + -0.1845 * t + 6.2675)%float).
Proof.
  intro t. subst t.
  unfold Binary64.pump_speed_from_Tsa_static, Binary64.adj_threashold,
    Binary64.T_sa_adjust; cbv zeta.
  split; intros Hcmp; rewrite Hcmp; reflexivity.
Qed.

(** Static 1.5, where the computed threshold is 60: supply air 60 gives 0.6,
    supply air 59 the quadratic at 59, supply air 0 the quadratic at 0. *)
Lemma pump_speed_two_branches_binary64_witness :
  Binary64.pump_speed_from_Tsa_static Binary64.pow_by_products 60 1.5 = 0.6%float /\
  Binary64.pump_speed_from_Tsa_static Binary64.pow_by_products 59 1.5
    = (0.0015 * Binary64.pow_by_products 59 2 + -0.1845 * 59 + 6.2675)%float /\
  Binary64.pump_speed_from_Tsa_static Binary64.pow_by_products 0 1.5 = 6.2675%float.
Proof.
  split; [|split].
  - apply (pump_speed_two_branches_binary64 Binary64.pow_by_products 60 1.5).
    vm_compute. reflexivity.
  - destruct (pump_speed_two_branches_binary64 Binary64.pow_by_products 59 1.5)
      as [_ Hq].
    rewrite Hq by (vm_compute; reflexivity). vm_compute. reflexivity.
  - destruct (pump_speed_two_branches_binary64 Binary64.pow_by_products 0 1.5)
      as [_ Hq].
    rewrite Hq by (vm_compute; reflexivity). vm_compute. reflexivity.
Defined.




(** ** Damper position *)

(** C3 (as the specification words it, refuted): the damper position at
    static 1 with a zero load adjustment is not [0.3388]. *)
Lemma damper_pos_unit_static_not_03388 :
  damper_pos_from_static 1 (Some 0) <> 0.3388.
Proof. expose damper_pos_from_static. lra. Qed.

(** C3 (amended): [damper_position(1.0, 0)] equals
    [-0.221 + 1.1788 - 2.1134 + 1.6964], and that sum is [0.5408]. *)
Theorem damper_pos_unit_static :
  damper_pos_from_static 1 (Some 0) = -0.221 + 1.1788 - 2.1134 + 1.6964 /\
  -0.221 + 1.1788 - 2.1134 + 1.6964 = 0.5408.
Proof. expose damper_pos_from_static. split; lra. Qed.

(** The cubic in general, with the load adjustment added to it unchanged. *)
Lemma damper_pos_cubic (static load_adj : R) :
  damper_pos_from_static static (Some load_adj)
  = -0.221 * static ^ 3 + 1.1788 * static ^ 2 - 2.1134 * static + 1.6964 + load_adj.
Proof. expose damper_pos_from_static. lra. Qed.

(** ** Fan speed *)

(** C5: for every positive static and every fan adjustment the fan speed is
    [28.345 * static^0.3412 * fan_adj] divided by 60; at static 1 with
    adjustment 1 this is [28.345 / 60], within [10^-6] of [0.472417]. *)
Theorem fan_speed_power_law (static fan_adj : R) :
  0 < static ->
  fan_speed_from_static static (Some fan_adj)
    = Some (28.345 * Rpower static 0.3412 * fan_adj / 60) /\
  fan_speed_from_static 1 (Some 1) = Some (28.345 / 60) /\
  Rabs (28.345 / 60 - 0.472417) < 0.000001.
Proof.
  intros Hs. split; [|split].
  - expose fan_speed_from_static.
    rewrite float_pow_positive by assumption. reflexivity.
  - expose fan_speed_from_static.
    rewrite float_pow_positive by lra.
    rewrite Rpower_base_one. f_equal. lra.
  - apply Rabs_def1; lra.
Qed.

(** Static 2.5 with the fan adjustment doubled. *)
Lemma fan_speed_power_law_witness :
  fan_speed_from_static 2.5 (Some 2) = Some (28.345 * Rpower 2.5 0.3412 * 2 / 60).
Proof. apply (fan_speed_power_law 2.5 2). lra. Defined.

(** A negative static has no real fan speed. *)
Lemma fan_speed_negative_static (static : R) (fan_adj : option R) :
  static < 0 -> fan_speed_from_static static fan_adj = None.
Proof.
  intros Hs. expose fan_speed_from_static.
  rewrite float_pow_negative by assumption. reflexivity.
Qed.

(** ** Fan and pump power *)

(** C6: for every speed ratio [r], [fan_power(r, 1, 1)] and
    [pump_power(r, 1, 1)] agree; both are the cubic part-load curve with
    coefficients [1.0608, -0.1222, 0.0684, 0.0022] scaled by [0.7457], and
    with the rated power left out they are the same curve at 15 and at 25. *)
Theorem fan_pump_power_shared_curve (r : R) :
  fan_power_from_speed r (Some 1) (Some 1) = pump_power_from_speed r (Some 1) (Some 1) /\
  fan_power_from_speed r (Some 1) (Some 1)
    = Some ((1.0608 * r ^ 3 - 0.1222 * r ^ 2 + 0.0684 * r + 0.0022) * 0.7457) /\
  (forall eff : option R,
     fan_power_from_speed r None eff = fan_power_from_speed r (Some 15) eff /\
     pump_power_from_speed r None eff = pump_power_from_speed r (Some 25) eff /\
     forall hp : R,
       fan_power_from_speed r (Some hp) eff = pump_power_from_speed r (Some hp) eff).
Proof.
  split; [|split].
  - reflexivity.
  - rewrite fan_power_is_spec by lra.
    unfold spec_power_kw, spec_part_load_ratio. f_equal. lra.
  - intros eff. repeat split.
Qed.

(** C7: a call of [fan_power] with the speed ratio alone is the call with
    rated power 15 and efficiency 0.9, and a call of [pump_power] with the
    speed ratio alone is the call with rated power 25 and efficiency 0.9. *)
Theorem power_default_arguments (x : R) :
  fan_power_from_speed x None None = fan_power_from_speed x (Some 15) (Some 0.9) /\
  pump_power_from_speed x None None = pump_power_from_speed x (Some 25) (Some 0.9).
Proof. split; reflexivity. Qed.

(** With the defaults a result exists for every speed ratio, and it is the
    helper of the specification at (15, 0.9) and at (25, 0.9). *)
Lemma power_default_values (x : R) :
  fan_power_from_speed x None None = Some (spec_power_kw x 15 0.9) /\
  pump_power_from_speed x None None = Some (spec_power_kw x 25 0.9).
Proof.
  split.
  - change (fan_power_from_speed x None None)
      with (fan_power_from_speed x (Some 15) (Some 0.9)).
    apply fan_power_is_spec. lra.
  - change (pump_power_from_speed x None None)
      with (pump_power_from_speed x (Some 25) (Some 0.9)).
    apply pump_power_is_spec. lra.
Qed.


(** Every chord of the part-load cubic has slope at least 0.0637. *)
Lemma part_load_chord_slope (r1 r2 : R) :
  0.0637 <= 1.0608 * (r1 * r1 + r1 * r2 + r2 * r2) - 0.1222 * (r1 + r2) + 0.0684.
Proof.
  pose proof (pow2_ge_0 (r1 - r2)) as Hd.
  pose proof (pow2_ge_0 (r1 + r2 - 0.0768)) as Hs.
  nra.
Qed.

Lemma spec_part_load_ratio_rise (r1 r2 : R) :
  r1 <= r2 ->
  spec_part_load_ratio r1 + 0.0637 * (r2 - r1) <= spec_part_load_ratio r2.
Proof.
  intros Hle. unfold spec_part_load_ratio.
  pose proof (part_load_chord_slope r1 r2) as Hc.
  assert (0 <= (r2 - r1) *
               (1.0608 * (r1 * r1 + r1 * r2 + r2 * r2) - 0.1222 * (r1 + r2) + 0.0684
                - 0.0637)) as Hp
    by (apply Rmult_le_pos; lra).
  lra.
Qed.

Lemma spec_power_kw_rise (r1 r2 hp eff : R) :
  0 < hp -> 0 < eff -> r1 <= r2 ->
  spec_power_kw r1 hp eff + 0.0637 * (hp * 0.7457 / eff) * (r2 - r1)
  <= spec_power_kw r2 hp eff.
Proof.
  intros Hhp Heff Hle. unfold spec_power_kw.
  pose proof (spec_part_load_ratio_rise r1 r2 Hle) as Hr.
  assert (0 < hp * 0.7457 / eff) as Hk by (apply Rdiv_lt_0_compat; lra).
  nra.
Qed.



(** C10: at zero speed, for every positive rated power and efficiency, fan
    power and pump power are both [0.0022 * hp * 0.7457 / eff], which is
    strictly positive. *)
Theorem power_at_zero_speed (hp eff : R) :
  0 < hp -> 0 < eff ->
  fan_power_from_speed 0 (Some hp) (Some eff) = Some (0.0022 * hp * 0.7457 / eff) /\
  pump_power_from_speed 0 (Some hp) (Some eff) = Some (0.0022 * hp * 0.7457 / eff) /\
  0 < 0.0022 * hp * 0.7457 / eff.
Proof.
  intros Hhp Heff.
  assert (eff <> 0) as Hnz by lra.
  split; [|split].
  - expose fan_power_from_speed. rewrite float_div_nonzero by assumption.
    f_equal. unfold Rdiv. lra.
  - expose pump_power_from_speed. rewrite float_div_nonzero by assumption.
    f_equal. unfold Rdiv. lra.
  - apply Rdiv_lt_0_compat; lra.
Qed.

(** A 15 hp fan and pump at efficiency 0.9 draw 0.027342... kW at rest. *)
Lemma power_at_zero_speed_witness :
  fan_power_from_speed 0 (Some 15) (Some 0.9) = Some (0.0022 * 15 * 0.7457 / 0.9) /\
  pump_power_from_speed 0 (Some 15) (Some 0.9) = Some (0.0022 * 15 * 0.7457 / 0.9) /\
  0 < 0.0022 * 15 * 0.7457 / 0.9.
Proof. apply (power_at_zero_speed 15 0.9); lra. Defined.

(** * Further properties of the six formulas *)

(** ** Valve position: range and monotonicity *)

(** X1: the valve position never exceeds 1, whatever the inputs. *)
Theorem valve_pos_at_most_one (T_sa static : R) :
  valve_pos_from_Tsa_static T_sa static <= 1.
Proof. expose valve_pos_from_Tsa_static. take_branch; lra. Qed.

(** X2: on the documented domain, supply air in [55, 70] and static in
    [0.3, 2.5], the clamp never fires: the result is the quadratic plus the
    adjustment, and it lies between 0.0248 and 0.7903. *)
Theorem valve_pos_documented_domain (T_sa static : R) :
  55 <= T_sa <= 70 -> 0.3 <= static <= 2.5 ->
  valve_pos_from_Tsa_static T_sa static
    = 0.0008 * T_sa ^ 2 - 0.1217 * T_sa + 4.8238 - (static - 1.5) * 0.2 /\
  0.0248 <= valve_pos_from_Tsa_static T_sa static <= 0.7903.
Proof.
  intros [HT1 HT2] [Hs1 Hs2].
  assert (0 <= (70 - T_sa) * (0.1217 - 0.0008 * (T_sa + 70))) as Hlo
    by (apply Rmult_le_pos; lra).
  assert (0 <= (T_sa - 55) * (0.1217 - 0.0008 * (T_sa + 55))) as Hhi
    by (apply Rmult_le_pos; lra).
  expose valve_pos_from_Tsa_static. take_branch; split; lra.
Qed.

(** The corners of the documented domain reach both bounds. *)
Lemma valve_pos_documented_domain_witness :
  valve_pos_from_Tsa_static 70 2.5 = 0.0248 /\
  valve_pos_from_Tsa_static 55 0.3 = 0.7903.
Proof.
  split.
  - destruct (valve_pos_documented_domain 70 2.5) as [Heq _]; [lra | lra |].
    rewrite Heq. lra.
  - destruct (valve_pos_documented_domain 55 0.3) as [Heq _]; [lra | lra |].
    rewrite Heq. lra.
Defined.

(** X3: at a fixed supply air temperature a higher static never opens the
    valve further. *)
Theorem valve_pos_antitone_in_static (T_sa s1 s2 : R) :
  s1 <= s2 ->
  valve_pos_from_Tsa_static T_sa s2 <= valve_pos_from_Tsa_static T_sa s1.
Proof.
  intros Hs. expose valve_pos_from_Tsa_static.
  destruct (Rgt_dec _ 1); destruct (Rgt_dec _ 1); lra.
Qed.

(** Static 1 against static 2 at supply air 60: 0.5018 against 0.3018. *)
Lemma valve_pos_antitone_in_static_witness :
  valve_pos_from_Tsa_static 60 2 <= valve_pos_from_Tsa_static 60 1.
Proof. apply (valve_pos_antitone_in_static 60 1 2). lra. Defined.

(** ** Damper position: monotonicity and range *)

(** The slope of every chord of the damper cubic is negative: the quadratic
    form below has a negative discriminant. *)
Lemma damper_chord_negative (s1 s2 : R) :
  -0.221 * (s1 * s1 + s1 * s2 + s2 * s2) + 1.1788 * (s1 + s2) - 2.1134 < 0.
Proof.
  pose proof (pow2_ge_0 (s1 - s2)) as Hd.
  pose proof (pow2_ge_0 (s1 + s2 - 3.556)) as Hs.
  nra.
Qed.

(** Every chord of the damper cubic has slope at most -0.0175. *)
Lemma damper_chord_slope (s1 s2 : R) :
  -0.221 * (s1 * s1 + s1 * s2 + s2 * s2) + 1.1788 * (s1 + s2) - 2.1134 <= -0.0175.
Proof.
  pose proof (pow2_ge_0 (s1 - s2)) as Hd.
  pose proof (pow2_ge_0 (s1 + s2 - 3.556)) as Hs.
  nra.
Qed.

(** X4: on the documented domain, static in [0.3, 2.5], with the default
    load adjustment, statics at least 0.001 apart give damper positions in
    the opposite order: the position falls by at least 0.0175 per unit of
    static. *)
Theorem damper_pos_falls_on_domain (s1 s2 : R) :
  0.3 <= s1 -> s1 + 0.001 <= s2 -> s2 <= 2.5 ->
  damper_pos_from_static s2 None + 0.0175 * (s2 - s1)
  <= damper_pos_from_static s1 None.
Proof.
  intros H1 Hsep H2. pose proof (damper_chord_slope s1 s2) as Hc.
  assert (0 <= (s2 - s1) *
               (-0.0175 - (-0.221 * (s1 * s1 + s1 * s2 + s2 * s2)
                           + 1.1788 * (s1 + s2) - 2.1134))) as Hp
    by (apply Rmult_le_pos; lra).
  expose damper_pos_from_static. lra.
Qed.

(** Static 1 against static 2. *)
Lemma damper_pos_falls_on_domain_witness :
  damper_pos_from_static 2 None + 0.0175 * (2 - 1) <= damper_pos_from_static 1 None.
Proof. apply (damper_pos_falls_on_domain 1 2); lra. Defined.

(** X5: on the documented domain, static in [0.3, 2.5], with the default
    load adjustment, the damper position lies between 0.327275 and 1.162505,
    and it is above 1 for every static up to 0.4. *)
Theorem damper_pos_documented_domain (static : R) :
  0.3 <= static <= 2.5 ->
  0.327275 <= damper_pos_from_static static None <= 1.162505 /\
  (static <= 0.4 -> 1 < damper_pos_from_static static None).
Proof.
  intros [Hs1 Hs2].
  pose proof (damper_chord_negative static 2.5) as Hhi.
  pose proof (damper_chord_negative 0.3 static) as Hlo.
  pose proof (damper_chord_negative static 0.4) as Hmid.
  expose damper_pos_from_static.
  repeat split; try intros Hs3; nra.
Qed.

(** The ends of the documented domain reach both bounds. *)
Lemma damper_pos_documented_domain_witness :
  damper_pos_from_static 0.3 None = 1.162505 /\
  damper_pos_from_static 2.5 None = 0.327275.
Proof.
  destruct (damper_pos_documented_domain 0.3) as [[Hlo Hhi] Hbig]; [lra|].
  destruct (damper_pos_documented_domain 2.5) as [[Hlo' Hhi'] _]; [lra|].
  split.
  - apply Rle_antisym; [exact Hhi|].
    expose damper_pos_from_static. lra.
  - apply Rle_antisym; [|exact Hlo'].
    expose damper_pos_from_static. lra.
Defined.

(** ** Fan speed: existence, sign, monotonicity and range *)

(** On a positive static the fan speed is the power law, whether the
    adjustment is given or left out. *)
Lemma fan_speed_on_positive (static : R) (fan_adj : option R) :
  0 < static ->
  fan_speed_from_static static fan_adj
  = Some (28.345 * Rpower static 0.3412 * kwarg 1 fan_adj / 60).
Proof.
  intros Hs. unfold fan_speed_from_static, item; cbn [nth]; cbv zeta.
  rewrite float_pow_positive by assumption. reflexivity.
Qed.

(** Under a base of at most 1 a larger exponent gives a smaller power. *)
Lemma Rpower_small_base (x a b : R) :
  0 < x <= 1 -> a <= b -> Rpower x b <= Rpower x a.
Proof.
  intros [Hx0 Hx1] Hab. unfold Rpower.
  assert (ln x <= 0) as Hln.
  { destruct Hx1 as [Hlt|Heq].
    - apply Rlt_le. rewrite <- ln_1. apply ln_increasing; assumption.
    - rewrite Heq, ln_1. lra. }
  assert (b * ln x <= a * ln x) as Hm by nra.
  destruct Hm as [Hlt|Heq].
  - apply Rlt_le, exp_increasing, Hlt.
  - rewrite Heq. lra.
Qed.

(** The power [static ^ 0.3412] on the documented domain of the static. *)
Lemma Rpower_static_bounds (static : R) :
  0.3 <= static <= 2.5 -> 0.54 < Rpower static 0.3412 < 1.6.
Proof.
  intros [Hs1 Hs2]. split.
  - apply Rlt_le_trans with (Rpower 0.3 (/ 2)).
    + rewrite Rpower_sqrt by lra.
      rewrite <- (sqrt_square 0.54) by lra.
      apply sqrt_lt_1_alt. lra.
    + apply Rle_trans with (Rpower 0.3 0.3412).
      * apply Rpower_small_base; lra.
      * apply Rle_Rpower_l; lra.
  - apply Rle_lt_trans with (Rpower 2.5 (/ 2)).
    + apply Rle_trans with (Rpower 2.5 0.3412).
      * apply Rle_Rpower_l; lra.
      * apply Rle_Rpower; lra.
    + rewrite Rpower_sqrt by lra.
      rewrite <- (sqrt_square 1.6) by lra.
      apply sqrt_lt_1_alt. lra.
Qed.

(** X6: for every static that is not negative the fan speed exists, and it
    is zero exactly when the static or the fan adjustment is zero. *)
Theorem fan_speed_zero_iff (static fan_adj : R) :
  0 <= static ->
  exists v : R,
    fan_speed_from_static static (Some fan_adj) = Some v /\
    (v = 0 <-> static = 0 \/ fan_adj = 0).
Proof.
  intros [Hpos|Hzero].
  - rewrite fan_speed_on_positive by assumption. cbn [kwarg].
    eexists. split; [reflexivity|].
    pose proof (exp_pos (0.3412 * ln static)) as Hp. fold (Rpower static 0.3412) in Hp.
    split.
    + intros Hv. right.
      assert (Rpower static 0.3412 * fan_adj = 0) as Hm by lra.
      apply Rmult_integral in Hm. destruct Hm; lra.
    + intros [Hs|Ha]; [lra|]. rewrite Ha. lra.
  - subst static. expose fan_speed_from_static. unfold float_pow.
    destruct (Rlt_dec 0 0); [lra|].
    destruct (Req_dec_T 0 0); [|lra].
    destruct (Rlt_dec 0 0.3412); [|lra].
    eexists. split; [reflexivity|].
    split; [intros _; left; reflexivity | intros _; lra].
Qed.

(** Static zero gives speed zero; static 1 with adjustment 1 does not. *)
Lemma fan_speed_zero_iff_witness :
  exists v : R,
    fan_speed_from_static 0 (Some 1) = Some v /\ (v = 0 <-> 0 = 0 \/ 1 = 0).
Proof. apply (fan_speed_zero_iff 0 1). lra. Defined.

(** X7: on the documented domain, static in [0.3, 2.5], with the default
    fan adjustment, statics at least 0.001 apart give fan speeds in the same
    order. *)
Theorem fan_speed_rises_on_domain (s1 s2 : R) :
  0.3 <= s1 -> s1 + 0.001 <= s2 -> s2 <= 2.5 ->
  exists v1 v2 : R,
    fan_speed_from_static s1 None = Some v1 /\
    fan_speed_from_static s2 None = Some v2 /\
    v1 < v2.
Proof.
  intros H1 Hsep H2.
  do 2 eexists. rewrite !fan_speed_on_positive by lra. cbn [kwarg].
  split; [reflexivity|]. split; [reflexivity|].
  assert (Rpower s1 0.3412 < Rpower s2 0.3412) as Hp
    by (apply Rlt_Rpower_l; lra).
  lra.
Qed.

(** Static 1 against static 2. *)
Lemma fan_speed_rises_on_domain_witness :
  exists v1 v2 : R,
    fan_speed_from_static 1 None = Some v1 /\
    fan_speed_from_static 2 None = Some v2 /\
    v1 < v2.
Proof. apply (fan_speed_rises_on_domain 1 2); lra. Defined.

(** X8: on the documented domain, static in [0.3, 2.5], with the default
    fan adjustment, the fan speed exists and lies strictly between 0.25 and
    0.76: it is a ratio inside (0, 1). *)
Theorem fan_speed_documented_domain (static : R) :
  0.3 <= static <= 2.5 ->
  exists v : R,
    fan_speed_from_static static None = Some v /\ 0.25 < v < 0.76.
Proof.
  intros Hs. pose proof (Rpower_static_bounds static Hs) as [Hlo Hhi].
  rewrite fan_speed_on_positive by lra. cbn [kwarg].
  eexists. split; [reflexivity|]. lra.
Qed.

(** Static 1.5, the middle of the domain. *)
Lemma fan_speed_documented_domain_witness :
  exists v : R, fan_speed_from_static 1.5 None = Some v /\ 0.25 < v < 0.76.
Proof. apply (fan_speed_documented_domain 1.5). lra. Defined.

(** ** Pump speed: lower bound, range and shape *)

(** The quadratic branch written out, for a supply air temperature strictly
    below the adjusted threshold. *)
Lemma pump_speed_quadratic_branch (T_sa static : R) :
  T_sa < 60 - (static - 1.5) * 10 ->
  pump_speed_from_Tsa_static T_sa static
  = 0.0015 * (T_sa + (static - 1.5) * 10) ^ 2
    - 0.1845 * (T_sa + (static - 1.5) * 10) + 6.2675.
Proof. intros Ht. expose pump_speed_from_Tsa_static. take_branch. lra. Qed.

Lemma pump_speed_base_branch (T_sa static : R) :
  60 - (static - 1.5) * 10 <= T_sa ->
  pump_speed_from_Tsa_static T_sa static = 0.6.
Proof. intros Ht. expose pump_speed_from_Tsa_static. take_branch. reflexivity. Qed.

(** Left of 60 the quadratic of the pump speed is above its value at 60. *)
Lemma pump_quadratic_above_floor (t : R) :
  t < 60 -> 0.5975 < 0.0015 * t ^ 2 - 0.1845 * t + 6.2675.
Proof.
  intros Ht.
  assert (0 < (60 - t) * (0.1845 - 0.0015 * (t + 60))) as Hp
    by (apply Rmult_lt_0_compat; lra).
  lra.
Qed.

(** X9: the pump speed is above 0.597 for every supply air temperature and
    every static. *)
Theorem pump_speed_above_0597 (T_sa static : R) :
  0.597 < pump_speed_from_Tsa_static T_sa static.
Proof.
  destruct (Rle_lt_dec (60 - (static - 1.5) * 10) T_sa) as [Hge|Hlt].
  - rewrite pump_speed_base_branch by assumption. lra.
  - rewrite pump_speed_quadratic_branch by assumption.
    pose proof (pump_quadratic_above_floor (T_sa + (static - 1.5) * 10)) as Hq.
    lra.
Qed.

(** X11: on the documented domain, supply air in [55, 70] and static in
    [0.3, 2.5], the pump speed lies between 0.597 and 1.1075; the upper bound
    is above 1. *)
Theorem pump_speed_documented_range (T_sa static : R) :
  55 <= T_sa <= 70 -> 0.3 <= static <= 2.5 ->
  0.597 < pump_speed_from_Tsa_static T_sa static <= 1.1075.
Proof.
  intros [HT1 HT2] [Hs1 Hs2].
  destruct (Rle_lt_dec (60 - (static - 1.5) * 10) T_sa) as [Hge|Hlt].
  - rewrite pump_speed_base_branch by assumption. lra.
  - rewrite pump_speed_quadratic_branch by assumption.
    set (t := T_sa + (static - 1.5) * 10).
    assert (43 <= t < 60) as [Ht1 Ht2] by (unfold t; lra).
    pose proof (pump_quadratic_above_floor t Ht2) as Hlo.
    assert (0 <= (t - 43) * (0.1845 - 0.0015 * (t + 43))) as Hhi
      by (apply Rmult_le_pos; lra).
    lra.
Qed.

(** The coldest, lowest-pressure corner of the domain reaches 1.1075. *)
Lemma pump_speed_documented_range_witness :
  pump_speed_from_Tsa_static 55 0.3 = 1.1075.
Proof.
  destruct (pump_speed_documented_range 55 0.3) as [_ Hhi]; [lra | lra |].
  apply Rle_antisym; [exact Hhi|].
  rewrite pump_speed_quadratic_branch by lra. lra.
Defined.

(** X12: on the documented domain, for supply air temperatures at least
    0.001 apart and at least 0.001 below the adjusted threshold, the pump
    speed falls as the supply air warms, by at least 0.0045 per degree. *)
Theorem pump_speed_falls_below_threshold (T1 T2 static : R) :
  55 <= T1 -> T1 + 0.001 <= T2 -> T2 <= 70 ->
  T2 + 0.001 <= 60 - (static - 1.5) * 10 ->
  0.3 <= static <= 2.5 ->
  pump_speed_from_Tsa_static T2 static + 0.0045 * (T2 - T1)
  <= pump_speed_from_Tsa_static T1 static.
Proof.
  intros H1 Hsep H70 H2 Hs.
  rewrite !pump_speed_quadratic_branch by lra.
  set (d := (static - 1.5) * 10) in *.
  assert (0 <= (T2 - T1) * (0.1845 - 0.0045 - 0.0015 * (T1 + d + (T2 + d)))) as Hp
    by (apply Rmult_le_pos; lra).
  lra.
Qed.

(** Supply air 55 against 58 at static 1.5: 0.6575 against 0.6125. *)
Lemma pump_speed_falls_below_threshold_witness :
  pump_speed_from_Tsa_static 58 1.5 + 0.0045 * (58 - 55)
  <= pump_speed_from_Tsa_static 55 1.5.
Proof. apply (pump_speed_falls_below_threshold 55 58 1.5); lra. Defined.

(** X13: on the documented domain the pump speed undershoots the base speed
    just below the adjusted threshold: with the supply air between 0.001 and
    0.47 below the threshold it is under 0.6, with the supply air 0.48 or
    more below the threshold it is over 0.6. *)
Theorem pump_speed_undershoot_on_domain (T_sa static : R) :
  55 <= T_sa <= 70 -> 0.3 <= static <= 2.5 ->
  (0.001 <= 60 - (static - 1.5) * 10 - T_sa <= 0.47 ->
   pump_speed_from_Tsa_static T_sa static < 0.6) /\
  (0.48 <= 60 - (static - 1.5) * 10 - T_sa ->
   0.6 < pump_speed_from_Tsa_static T_sa static).
Proof.
  intros HT Hs. split; intros Hgap.
  - rewrite pump_speed_quadratic_branch by lra.
    set (g := 60 - (static - 1.5) * 10 - T_sa) in *.
    replace (T_sa + (static - 1.5) * 10) with (60 - g) by (unfold g; lra).
    nra.
  - rewrite pump_speed_quadratic_branch by lra.
    set (g := 60 - (static - 1.5) * 10 - T_sa) in *.
    replace (T_sa + (static - 1.5) * 10) with (60 - g) by (unfold g; lra).
    nra.
Qed.

(** Static 1.5: supply air 59.6 gives less than 0.6, supply air 59 more. *)
Lemma pump_speed_undershoot_on_domain_witness :
  pump_speed_from_Tsa_static 59.6 1.5 < 0.6 /\
  0.6 < pump_speed_from_Tsa_static 59 1.5.
Proof.
  split.
  - apply (pump_speed_undershoot_on_domain 59.6 1.5); lra.
  - apply (pump_speed_undershoot_on_domain 59 1.5); lra.
Defined.

(** ** Fan and pump power: monotonicity, range and ratio *)

Lemma part_load_chord_positive (r1 r2 : R) :
  0 < 1.0608 * (r1 * r1 + r1 * r2 + r2 * r2) - 0.1222 * (r1 + r2) + 0.0684.
Proof.
  pose proof (pow2_ge_0 (r1 - r2)) as Hd.
  pose proof (pow2_ge_0 (r1 + r2 - 0.0768)) as Hs.
  nra.
Qed.

Lemma spec_part_load_ratio_increasing (r1 r2 : R) :
  r1 < r2 -> spec_part_load_ratio r1 < spec_part_load_ratio r2.
Proof.
  intros Hlt. unfold spec_part_load_ratio.
  pose proof (part_load_chord_positive r1 r2) as Hc.
  assert (0 < (r2 - r1) *
              (1.0608 * (r1 * r1 + r1 * r2 + r2 * r2) - 0.1222 * (r1 + r2) + 0.0684)) as Hp
    by (apply Rmult_lt_0_compat; lra).
  lra.
Qed.

Lemma spec_power_kw_increasing (r1 r2 hp eff : R) :
  0 < hp -> 0 < eff -> r1 < r2 -> spec_power_kw r1 hp eff < spec_power_kw r2 hp eff.
Proof.
  intros Hhp Heff Hlt. unfold spec_power_kw.
  apply Rmult_lt_compat_r.
  - apply Rdiv_lt_0_compat; lra.
  - apply spec_part_load_ratio_increasing, Hlt.
Qed.

(** X14: for every positive rated power and efficiency, fan power and pump
    power agree, and for speed ratios in [0, 1] at least 0.001 apart the
    larger speed ratio gives the larger power. *)
Theorem power_rises_for_any_rating (r1 r2 hp eff : R) :
  0 < hp -> 0 < eff -> 0 <= r1 -> r1 + 0.001 <= r2 -> r2 <= 1 ->
  exists p1 p2 : R,
    fan_power_from_speed r1 (Some hp) (Some eff) = Some p1 /\
    pump_power_from_speed r1 (Some hp) (Some eff) = Some p1 /\
    fan_power_from_speed r2 (Some hp) (Some eff) = Some p2 /\
    pump_power_from_speed r2 (Some hp) (Some eff) = Some p2 /\
    p1 + 0.0637 * (hp * 0.7457 / eff) * (r2 - r1) <= p2 /\
    p1 < p2.
Proof.
  intros Hhp Heff H0 Hsep H1.
  exists (spec_power_kw r1 hp eff), (spec_power_kw r2 hp eff).
  rewrite !fan_power_is_spec, !pump_power_is_spec by lra.
  pose proof (spec_power_kw_rise r1 r2 hp eff Hhp Heff) as Hr.
  assert (0 < hp * 0.7457 / eff) as Hk by (apply Rdiv_lt_0_compat; lra).
  repeat split; try lra; nra.
Qed.

(** Speed ratios 0.2 and 0.9 at 10 hp and efficiency 0.8. *)
Lemma power_rises_for_any_rating_witness :
  exists p1 p2 : R,
    fan_power_from_speed 0.2 (Some 10) (Some 0.8) = Some p1 /\
    pump_power_from_speed 0.2 (Some 10) (Some 0.8) = Some p1 /\
    fan_power_from_speed 0.9 (Some 10) (Some 0.8) = Some p2 /\
    pump_power_from_speed 0.9 (Some 10) (Some 0.8) = Some p2 /\
    p1 + 0.0637 * (10 * 0.7457 / 0.8) * (0.9 - 0.2) <= p2 /\
    p1 < p2.
Proof. apply (power_rises_for_any_rating 0.2 0.9 10 0.8); lra. Defined.

(** X15: for a speed ratio in [0, 1] and positive rated power and
    efficiency, the power lies between 0.0022 and 1.0092 times
    [hp * 0.7457 / eff]: never zero, and above the rated input at full
    speed. *)
Theorem power_range_on_unit_interval (r hp eff : R) :
  0 <= r <= 1 -> 0 < hp -> 0 < eff ->
  exists p : R,
    fan_power_from_speed r (Some hp) (Some eff) = Some p /\
    pump_power_from_speed r (Some hp) (Some eff) = Some p /\
    0.0022 * (hp * 0.7457 / eff) <= p <= 1.0092 * (hp * 0.7457 / eff).
Proof.
  intros [Hr0 Hr1] Hhp Heff.
  exists (spec_power_kw r hp eff).
  rewrite fan_power_is_spec, pump_power_is_spec by lra.
  repeat split.
  - replace (0.0022 * (hp * 0.7457 / eff)) with (spec_power_kw 0 hp eff)
      by (unfold spec_power_kw, spec_part_load_ratio; lra).
    apply spec_power_kw_monotone; assumption.
  - replace (1.0092 * (hp * 0.7457 / eff)) with (spec_power_kw 1 hp eff)
      by (unfold spec_power_kw, spec_part_load_ratio; lra).
    apply spec_power_kw_monotone; assumption.
Qed.

(** Half speed at 15 hp and efficiency 0.9. *)
Lemma power_range_on_unit_interval_witness :
  exists p : R,
    fan_power_from_speed 0.5 (Some 15) (Some 0.9) = Some p /\
    pump_power_from_speed 0.5 (Some 15) (Some 0.9) = Some p /\
    0.0022 * (15 * 0.7457 / 0.9) <= p <= 1.0092 * (15 * 0.7457 / 0.9).
Proof. apply (power_range_on_unit_interval 0.5 15 0.9); lra. Defined.

(** X16: called with the speed ratio alone, the pump power is five thirds
    of the fan power at the same speed ratio. *)
Theorem pump_power_default_ratio (r : R) :
  exists p : R,
    fan_power_from_speed r None None = Some p /\
    pump_power_from_speed r None None = Some (5 / 3 * p).
Proof.
  exists (spec_power_kw r 15 0.9).
  destruct (power_default_values r) as [Hfan Hpump].
  split; [exact Hfan|].
  rewrite Hpump. f_equal. unfold spec_power_kw. lra.
Qed.

(** ** The formulas chained as a caller would chain them *)

(** X17: on the documented domain of the static, the fan speed fed into the
    fan power, all defaults in effect, gives between 0.35 kW and 5.59 kW. *)
Theorem fan_power_of_static_documented_domain (static : R) :
  0.3 <= static <= 2.5 ->
  exists v p : R,
    fan_speed_from_static static None = Some v /\
    fan_power_from_speed v None None = Some p /\
    0.35 < p < 5.59.
Proof.
  intros Hs. pose proof (Rpower_static_bounds static Hs) as [Hlo Hhi].
  exists (28.345 * Rpower static 0.3412 * 1 / 60).
  set (v := 28.345 * Rpower static 0.3412 * 1 / 60).
  assert (0.25 < v < 0.76) as [Hv1 Hv2] by (unfold v; lra).
  exists (spec_power_kw v 15 0.9).
  split; [apply fan_speed_on_positive; lra|].
  split; [apply power_default_values|].
  pose proof (spec_power_kw_increasing 0.25 v 15 0.9) as H1.
  pose proof (spec_power_kw_increasing v 0.76 15 0.9) as H2.
  assert (0.35 < spec_power_kw 0.25 15 0.9) as Hb1
    by (unfold spec_power_kw, spec_part_load_ratio; lra).
  assert (spec_power_kw 0.76 15 0.9 < 5.59) as Hb2
    by (unfold spec_power_kw, spec_part_load_ratio; lra).
  lra.
Qed.

(** Static 1.5. *)
Lemma fan_power_of_static_documented_domain_witness :
  exists v p : R,
    fan_speed_from_static 1.5 None = Some v /\
    fan_power_from_speed v None None = Some p /\
    0.35 < p < 5.59.
Proof. apply (fan_power_of_static_documented_domain 1.5). lra. Defined.

(** X18: on the documented domain, static in [0.3, 2.5], the fan power
    obtained from the static through the fan speed, all defaults in effect,
    is larger at the larger of two statics at least 0.001 apart. *)
Theorem fan_power_of_static_rises_on_domain (s1 s2 : R) :
  0.3 <= s1 -> s1 + 0.001 <= s2 -> s2 <= 2.5 ->
  exists v1 v2 p1 p2 : R,
    fan_speed_from_static s1 None = Some v1 /\
    fan_speed_from_static s2 None = Some v2 /\
    fan_power_from_speed v1 None None = Some p1 /\
    fan_power_from_speed v2 None None = Some p2 /\
    p1 < p2.
Proof.
  intros H1 Hsep H2.
  exists (28.345 * Rpower s1 0.3412 * 1 / 60), (28.345 * Rpower s2 0.3412 * 1 / 60).
  do 2 eexists.
  split; [apply fan_speed_on_positive; lra|].
  split; [apply fan_speed_on_positive; lra|].
  split; [apply power_default_values|].
  split; [apply power_default_values|].
  apply spec_power_kw_increasing; try lra.
  assert (Rpower s1 0.3412 < Rpower s2 0.3412) as Hp
    by (apply Rlt_Rpower_l; lra).
  lra.
Qed.

(** Static 1 against static 2. *)
Lemma fan_power_of_static_rises_on_domain_witness :
  exists v1 v2 p1 p2 : R,
    fan_speed_from_static 1 None = Some v1 /\
    fan_speed_from_static 2 None = Some v2 /\
    fan_power_from_speed v1 None None = Some p1 /\
    fan_power_from_speed v2 None None = Some p2 /\
    p1 < p2.
Proof. apply (fan_power_of_static_rises_on_domain 1 2); lra. Defined.

(** X19: the pump speed fed into the pump power, all defaults in effect,
    gives more than 4.67 kW for every supply air temperature and static. *)
Theorem pump_power_of_pump_speed_floor (T_sa static : R) :
  exists p : R,
    pump_power_from_speed (pump_speed_from_Tsa_static T_sa static) None None = Some p /\
    4.67 < p.
Proof.
  set (v := pump_speed_from_Tsa_static T_sa static).
  exists (spec_power_kw v 25 0.9).
  split; [apply power_default_values|].
  assert (0.5975 < v) as Hv.
  { unfold v.
    destruct (Rle_lt_dec (60 - (static - 1.5) * 10) T_sa) as [Hge|Hlt].
    - rewrite pump_speed_base_branch by assumption. lra.
    - rewrite pump_speed_quadratic_branch by assumption.
      apply pump_quadratic_above_floor. lra. }
  pose proof (spec_power_kw_increasing 0.5975 v 25 0.9) as Hinc.
  assert (4.67 < spec_power_kw 0.5975 25 0.9) as Hb
    by (unfold spec_power_kw, spec_part_load_ratio; lra).
  lra.
Qed.
